(** * Calculator API: a shallow embedding of [app/main.py] and its tests

    The service exposes four arithmetic endpoints and a health check.
    Python's [float] is IEEE-754 binary64, which is what Rocq's primitive
    [float] is; the handlers are embedded over it.  A handler runs in a
    small monad [Py] whose outcome is a returned value or a raised
    exception, and which logs the arithmetic operators it evaluates, so
    that statements such as "the quotient is never computed with a zero
    divisor" can be made about the code and not only about its results.

    The HTTP layer (routing, body validation, status codes, the encoding
    of the response) belongs to the framework, not to the repository.  It
    is modelled for the routes that [app/main.py] registers, from the
    decoded request body to the decoded response body; what the
    framework answers on its own (its documentation routes, unknown paths
    and methods, bodies it cannot decode) is left to it. *)

From Stdlib Require Import ZArith String List Bool Floats.
From Stdlib Require Import Lia.
Import ListNotations.

Local Open Scope string_scope.
Local Open Scope Z_scope.

(** ** Python values *)

(** The binary operators on [float] that the handlers use. *)
Inductive binop : Type := OpAdd | OpSub | OpMul | OpTrueDiv.

(** One evaluation of a binary operator on two floats. *)
Record event : Type := Evaluated { ev_op : binop; ev_lhs : float; ev_rhs : float }.

(** The exceptions that can leave a handler: the one the code raises, and
    the one Python's [/] raises on a zero divisor. *)
Inductive exception : Type :=
| HTTPException (status_code : Z) (detail : string)
| ZeroDivisionError.

Inductive outcome (A : Type) : Type :=
| Return (x : A)
| Raise (e : exception).
Arguments Return {A} x.
Arguments Raise {A} e.

(** A computation: the operators evaluated, in order, and how it ended. *)
Definition Py (A : Type) : Type := (list event * outcome A)%type.

Definition ret {A} (x : A) : Py A := ([], Return x).

Definition raise {A} (e : exception) : Py A := ([], Raise e).

Definition bind {A B} (m : Py A) (k : A -> Py B) : Py B :=
  match m with
  | (t, Return x) => let (t', o) := k x in ((t ++ t')%list, o)
  | (t, Raise e) => (t, Raise e)
  end.

Notation "x <- m ;; k" := (bind m (fun x => k))
  (at level 61, m at next level, right associativity).

Definition trace {A} (m : Py A) : list event := fst m.
Definition result_of {A} (m : Py A) : outcome A := snd m.

(** [x == 0] for a float [x] and the integer literal 0: the integer is
    converted, so this is the IEEE comparison with [0.0]. *)
Definition float_eq_zero (x : float) : bool := (x =? 0)%float.

(** [x + y], [x - y], [x * y] on floats: total. *)
Definition float_add (x y : float) : Py float :=
  ([Evaluated OpAdd x y], Return (x + y)%float).

Definition float_sub (x y : float) : Py float :=
  ([Evaluated OpSub x y], Return (x - y)%float).

Definition float_mul (x y : float) : Py float :=
  ([Evaluated OpMul x y], Return (x * y)%float).

(** [x / y] on floats: Python raises [ZeroDivisionError] when the divisor
    compares equal to zero and returns the IEEE quotient otherwise. *)
Definition float_truediv (x y : float) : Py float :=
  ([Evaluated OpTrueDiv x y],
   if float_eq_zero y then Raise ZeroDivisionError else Return (x / y)%float).

(** ** The models of [app/main.py] *)

Module CalculationRequest.
Record t : Type := Build { a : float; b : float }.
End CalculationRequest.

Module CalculationResponse.
Record t : Type := Build { operation : string; a : float; b : float; result : float }.
End CalculationResponse.

(** ** The handlers of [app/main.py] *)

Definition _make_response (operation : string) (payload : CalculationRequest.t)
    (result : float) : CalculationResponse.t :=
  CalculationResponse.Build operation
    (CalculationRequest.a payload) (CalculationRequest.b payload) result.

Definition health (_ : unit) : Py (list (string * string)) :=
  ret [("status", "ok")].

Definition add (payload : CalculationRequest.t) : Py CalculationResponse.t :=
  r <- float_add (CalculationRequest.a payload) (CalculationRequest.b payload) ;;
  ret (_make_response "add" payload r).

Definition subtract (payload : CalculationRequest.t) : Py CalculationResponse.t :=
  r <- float_sub (CalculationRequest.a payload) (CalculationRequest.b payload) ;;
  ret (_make_response "subtract" payload r).

Definition multiply (payload : CalculationRequest.t) : Py CalculationResponse.t :=
  r <- float_mul (CalculationRequest.a payload) (CalculationRequest.b payload) ;;
  ret (_make_response "multiply" payload r).

Definition divide (payload : CalculationRequest.t) : Py CalculationResponse.t :=
  if float_eq_zero (CalculationRequest.b payload)
  then raise (HTTPException 400 "Cannot divide by zero")
  else
    r <- float_truediv (CalculationRequest.a payload) (CalculationRequest.b payload) ;;
    ret (_make_response "divide" payload r).

(** The four calculation endpoints, to quantify over them: the operation
    name each handler passes to [_make_response], the path it is bound to,
    the handler, and the float operator in its body. *)
Inductive calc_op : Type := Add | Subtract | Multiply | Divide.

Definition op_name (o : calc_op) : string :=
  match o with
  | Add => "add" | Subtract => "subtract" | Multiply => "multiply" | Divide => "divide"
  end.

Definition op_path (o : calc_op) : string :=
  match o with
  | Add => "/calc/add" | Subtract => "/calc/subtract"
  | Multiply => "/calc/multiply" | Divide => "/calc/divide"
  end.

Definition op_handler (o : calc_op) : CalculationRequest.t -> Py CalculationResponse.t :=
  match o with
  | Add => add | Subtract => subtract | Multiply => multiply | Divide => divide
  end.

Definition op_binop (o : calc_op) : binop :=
  match o with
  | Add => OpAdd | Subtract => OpSub | Multiply => OpMul | Divide => OpTrueDiv
  end.

Definition op_eval (o : calc_op) (x y : float) : float :=
  match o with
  | Add => (x + y)%float | Subtract => (x - y)%float
  | Multiply => (x * y)%float | Divide => (x / y)%float
  end.

(** ** Decoded JSON *)

#[local] Set Warnings "-register-all".

(** A decoded JSON document.  A number is held as the binary64 value the
    handlers receive; an object keeps its members in order. *)
Inductive jvalue : Type :=
| JNull
| JBool (v : bool)
| JNum (x : float)
| JStr (s : string)
| JList (l : list jvalue)
| JDict (members : list (string * jvalue)).

(** Member lookup; of two members with one name the later one counts, as
    in a decoded Python dict. *)
Fixpoint dict_get (k : string) (d : list (string * jvalue)) : option jvalue :=
  match d with
  | [] => None
  | (k', v) :: d' =>
      match dict_get k d' with
      | Some v' => Some v'
      | None => if String.eqb k' k then Some v else None
      end
  end.

Definition dict_keys (d : list (string * jvalue)) : list string := map fst d.

(** A [float] field in a response body: a finite value is written as the
    JSON number; infinity and NaN have no JSON number and are written as
    null, the default of the schema library. *)
Definition dump_float (x : float) : jvalue :=
  if is_finite x then JNum x else JNull.

(** The body written for a [CalculationResponse]: its four fields in
    declaration order. *)
Definition model_dump (r : CalculationResponse.t) : jvalue :=
  JDict [("operation", JStr (CalculationResponse.operation r));
         ("a", dump_float (CalculationResponse.a r));
         ("b", dump_float (CalculationResponse.b r));
         ("result", dump_float (CalculationResponse.result r))].

(** The body written for the [dict[str, str]] that [health] returns. *)
Definition dump_str_dict (d : list (string * string)) : jvalue :=
  JDict (map (fun kv => (fst kv, JStr (snd kv))) d).

(** ** The application object and its routes *)

Inductive method : Type := GET | POST.

Definition method_eqb (m1 m2 : method) : bool :=
  match m1, m2 with
  | GET, GET | POST, POST => true
  | _, _ => false
  end.

(** What a route is bound to: [health] takes no parameter; the calculation
    handlers take the validated body as [payload]. *)
Inductive endpoint : Type :=
| NoBody (f : unit -> Py (list (string * string)))
| WithBody (f : CalculationRequest.t -> Py CalculationResponse.t).

Record route : Type := Route {
  route_method : method;
  route_path : string;
  route_endpoint : endpoint
}.

Record FastAPI : Type := Build_app {
  title : string;
  version : string;
  routes : list route
}.

(** The decorators [@app.get(path)] and [@app.post(path, ...)]: each adds
    one route after those already registered. *)
Definition app_get (path : string) (f : unit -> Py (list (string * string)))
    (ap : FastAPI) : FastAPI :=
  Build_app (title ap) (version ap) (routes ap ++ [Route GET path (NoBody f)])%list.

Definition app_post (path : string)
    (f : CalculationRequest.t -> Py CalculationResponse.t) (ap : FastAPI) : FastAPI :=
  Build_app (title ap) (version ap) (routes ap ++ [Route POST path (WithBody f)])%list.

(** [app], once [app/main.py] has been imported: the routes listed are
    the five that the decorators of the module register, in their order.
    The routes that the constructor sets up for the framework's own
    documentation pages are served by the framework and are not listed. *)
Definition app : FastAPI :=
  app_post "/calc/divide" divide
    (app_post "/calc/multiply" multiply
      (app_post "/calc/subtract" subtract
        (app_post "/calc/add" add
          (app_get "/health" health
            (Build_app "Calculator API" "0.1.0" []))))).

Fixpoint find_route (rs : list route) (m : method) (path : string) : option route :=
  match rs with
  | [] => None
  | r :: rs' =>
      if method_eqb (route_method r) m && String.eqb (route_path r) path
      then Some r
      else find_route rs' m path
  end.

Record Request : Type := Build_Request {
  req_method : method;
  req_url : string;
  req_json : option jvalue
}.

Record Response : Type := Build_Response {
  status_code : Z;
  json : jvalue
}.

(** How the outcome of a handler becomes a response: a returned value is
    sent with status 200, the default of [@app.get] and [@app.post]; an
    [HTTPException] with its own status code and its detail; any other
    exception is a server error. *)
Definition respond {A} (dump : A -> jvalue) (m : Py A) : list event * Response :=
  match m with
  | (t, Return x) => (t, Build_Response 200 (dump x))
  | (t, Raise (HTTPException s d)) => (t, Build_Response s (JDict [("detail", JStr d)]))
  | (t, Raise ZeroDivisionError) => (t, Build_Response 500 (JStr "Internal Server Error"))
  end.

(** A coercion that accepts JSON numbers only, and an error report with no
    entries: the plainest instance of the validation layer below. *)
Definition numbers_only (v : jvalue) : option float := None.

Definition no_detail (body : option jvalue) : jvalue := JList [].

(** The values of the IEEE specification that are numbers of finite
    magnitude: the zeros and the finite non-zero values. *)
Definition SFfinite (x : spec_float) : bool :=
  match x with
  | S754_zero _ | S754_finite _ _ _ => true
  | _ => false
  end.

(** The largest finite binary64 value. *)
Definition float_max : float := 0x1.fffffffffffffp+1023%float.

(** ** The framework around the handlers *)

Section Framework.

(** What the schema-validation layer does with a member that is not a
    JSON number (it may still read some of them as numbers), and the
    field-level report it writes for a body it rejects.  Both are the
    library's business; the development holds for any choice. *)
Variable coerce_float : jvalue -> option float.
Variable validation_detail : option jvalue -> jvalue.

(** A field annotated [float]. *)
Definition validate_float (v : jvalue) : option float :=
  match v with
  | JNum x => Some x
  | _ => coerce_float v
  end.

(** Modelled from the spec: the validation of a request body against
    [CalculationRequest], which the schema library performs and the
    repository only declares (two required fields [a] and [b], both
    [float]).  The body is accepted when it is an object whose members
    [a] and [b] are present and parseable as floating-point numbers, and
    is rejected otherwise. *)
Definition CalculationRequest_validate (body : option jvalue) : option CalculationRequest.t :=
  match body with
  | Some (JDict d) =>
      match dict_get "a" d, dict_get "b" d with
      | Some va, Some vb =>
          match validate_float va, validate_float vb with
          | Some x, Some y => Some (CalculationRequest.Build x y)
          | _, _ => None
          end
      | _, _ => None
      end
  | _ => None
  end.

(** Modelled from the spec: a rejected body is answered by the validation
    layer with status 422 before the handler is called; an accepted one is
    handed to the handler as [payload]. *)
Definition call_endpoint (e : endpoint) (body : option jvalue) : list event * Response :=
  match e with
  | NoBody f => respond dump_str_dict (f tt)
  | WithBody f =>
      match CalculationRequest_validate body with
      | Some payload => respond model_dump (f payload)
      | None => ([], Build_Response 422 (JDict [("detail", validation_detail body)]))
      end
  end.

(** One request against an application, by the path of its URL: the
    operators evaluated while it was handled and the response, or [None]
    when none of the routes listed matches; the framework then answers on
    its own (a documentation page, not found, method not allowed). *)
Definition handle (ap : FastAPI) (rq : Request) : option (list event * Response) :=
  match find_route (routes ap) (req_method rq) (req_url rq) with
  | Some r => Some (call_endpoint (route_endpoint r) (req_json rq))
  | None => None
  end.

(** The server as a machine: the application object is all that lives
    from one request to the next, and handling a request hands it on. *)
Definition serve (st : FastAPI) (rq : Request) : FastAPI * option (list event * Response) :=
  (st, handle st rq).

Fixpoint state_after (st : FastAPI) (history : list Request) : FastAPI :=
  match history with
  | [] => st
  | rq :: rest => state_after (fst (serve st rq)) rest
  end.

(** ** The two clients of the tests *)

(** Modelled from the spec: the client libraries, which the tests call and
    the repository does not contain.  Both clients are built on the
    in-process [app] and hand it the request; [TestClient(app)] and its
    [post(url, json=...)] first. *)
Record TestClient : Type := Build_TestClient { client_app : FastAPI }.

Definition TestClient_post (c : TestClient) (url : string) (body : jvalue)
    : option (list event * Response) :=
  handle (client_app c) (Build_Request POST url (Some body)).

(** Modelled from the spec:
    [httpx.AsyncClient(transport=httpx.ASGITransport(app=app), base_url=...)]
    and its [post(url, json=...)], run to completion by [asyncio.run]; the
    base URL names the host and plays no part in routing. *)
Record ASGITransport : Type := Build_ASGITransport { transport_app : FastAPI }.

Record AsyncClient : Type := Build_AsyncClient {
  transport : ASGITransport;
  base_url : string
}.

Definition AsyncClient_post (c : AsyncClient) (url : string) (body : jvalue)
    : option (list event * Response) :=
  handle (transport_app (transport c)) (Build_Request POST url (Some body)).

(** [v == n] for a decoded JSON value and a number. *)
Definition json_eq_number (v : option jvalue) (n : float) : bool :=
  match v with
  | Some (JNum x) => (x =? n)%float
  | _ => false
  end.

(** [v == s] for a decoded JSON value and a string. *)
Definition json_eq_str (v : option jvalue) (s : string) : bool :=
  match v with
  | Some (JStr s') => String.eqb s' s
  | _ => false
  end.

(** [response.json()[k]]. *)
Definition json_item (r : Response) (k : string) : option jvalue :=
  match json r with
  | JDict d => dict_get k d
  | _ => None
  end.

(** [tests/test_calculator.py] *)
Definition client : TestClient := Build_TestClient app.

Definition test_add_returns_result : bool :=
  match TestClient_post client "/calc/add" (JDict [("a", JNum 2); ("b", JNum 3)]) with
  | Some (_, response) =>
      (status_code response =? 200) && json_eq_number (json_item response "result") 5
  | None => false
  end.

Definition test_divide_by_zero_returns_400 : bool :=
  match TestClient_post client "/calc/divide" (JDict [("a", JNum 2); ("b", JNum 0)]) with
  | Some (_, response) =>
      (status_code response =? 400)
      && json_eq_str (json_item response "detail") "Cannot divide by zero"
  | None => false
  end.

(** [tests/test_httpx_client.py] *)
Definition _call_add : option (list event * Response) :=
  AsyncClient_post (Build_AsyncClient (Build_ASGITransport app) "http://testserver")
    "/calc/add" (JDict [("a", JNum 1); ("b", JNum 4)]).

Definition test_httpx_can_call_add_endpoint : bool :=
  match _call_add with
  | Some (_, response) =>
      (status_code response =? 200) && json_eq_number (json_item response "result") 5
  | None => false
  end.

(** ** Properties of the handlers *)

Local Abbreviation req_a := CalculationRequest.a.
Local Abbreviation req_b := CalculationRequest.b.

(** The comparison with zero is the IEEE one. *)
Lemma float_eq_zero_spec (x : float) :
  float_eq_zero x = SFeqb (Prim2SF x) (S754_zero false).
Proof. unfold float_eq_zero. now rewrite eqb_spec. Qed.

(** The floats that compare equal to zero are the two zeros. *)
Lemma float_eq_zero_iff (x : float) :
  float_eq_zero x = true <-> x = 0%float \/ x = neg_zero.
Proof.
  split.
  - rewrite float_eq_zero_spec. intros H.
    assert (Hz : exists s, Prim2SF x = S754_zero s).
    { destruct (Prim2SF x) as [s | s | | s m e];
        [now exists s | destruct s; discriminate H | discriminate H
        | destruct s; discriminate H]. }
    destruct Hz as [s Hs].
    destruct s; [right | left]; apply Prim2SF_inj; rewrite Hs; reflexivity.
  - intros [-> | ->]; reflexivity.
Qed.

Lemma divide_nonzero (p : CalculationRequest.t) :
  float_eq_zero (req_b p) = false ->
  divide p = ([Evaluated OpTrueDiv (req_a p) (req_b p)],
              Return (_make_response "divide" p (req_a p / req_b p)%float)).
Proof.
  intros H. unfold divide, float_truediv. rewrite H. reflexivity.
Qed.

Lemma divide_zero (p : CalculationRequest.t) :
  float_eq_zero (req_b p) = true ->
  divide p = ([], Raise (HTTPException 400 "Cannot divide by zero")).
Proof.
  intros H. unfold divide. rewrite H. reflexivity.
Qed.

(** Each calculation path is routed to its handler. *)
Lemma find_route_op (o : calc_op) :
  find_route (routes app) POST (op_path o)
  = Some (Route POST (op_path o) (WithBody (op_handler o))).
Proof. destruct o; reflexivity. Qed.

Lemma handle_op (o : calc_op) (body : option jvalue) (p : CalculationRequest.t) :
  CalculationRequest_validate body = Some p ->
  handle app (Build_Request POST (op_path o) body)
  = Some (respond model_dump (op_handler o p)).
Proof.
  intros Hv. unfold handle. cbn [req_method req_url req_json].
  rewrite find_route_op. cbn [route_endpoint call_endpoint]. now rewrite Hv.
Qed.

(** The body of a 200 answer whose three floats are finite. *)
Lemma model_dump_finite (name : string) (x y z : float) :
  is_finite x = true -> is_finite y = true -> is_finite z = true ->
  model_dump (CalculationResponse.Build name x y z)
  = JDict [("operation", JStr name); ("a", JNum x); ("b", JNum y); ("result", JNum z)].
Proof.
  intros Hx Hy Hz. unfold model_dump, dump_float.
  cbn [CalculationResponse.operation CalculationResponse.a CalculationResponse.b
       CalculationResponse.result].
  now rewrite Hx, Hy, Hz.
Qed.

(** C1: on a payload whose [b] does not compare equal to zero, divide
    returns normally, with the IEEE quotient [a / b] as result, and when
    the inputs and the quotient are finite the answer is status 200 with
    that number in the body; on a payload whose [b] compares equal to
    zero the answer is status 400 with the detail "Cannot divide by
    zero", whatever [a] is. *)
Theorem divide_response (body : option jvalue) (p : CalculationRequest.t) :
  CalculationRequest_validate body = Some p ->
  (float_eq_zero (req_b p) = false ->
     divide p
     = ([Evaluated OpTrueDiv (req_a p) (req_b p)],
        Return (CalculationResponse.Build "divide" (req_a p) (req_b p)
                  (req_a p / req_b p)%float))
     /\ Prim2SF (req_a p / req_b p)%float
        = SF64div (Prim2SF (req_a p)) (Prim2SF (req_b p))
     /\ (is_finite (req_a p) = true -> is_finite (req_b p) = true ->
         is_finite (req_a p / req_b p)%float = true ->
         handle app (Build_Request POST "/calc/divide" body)
         = Some ([Evaluated OpTrueDiv (req_a p) (req_b p)],
                 Build_Response 200
                   (JDict [("operation", JStr "divide"); ("a", JNum (req_a p));
                           ("b", JNum (req_b p));
                           ("result", JNum (req_a p / req_b p)%float)]))))
  /\ (float_eq_zero (req_b p) = true ->
       divide p = ([], Raise (HTTPException 400 "Cannot divide by zero"))
       /\ handle app (Build_Request POST "/calc/divide" body)
          = Some ([], Build_Response 400 (JDict [("detail", JStr "Cannot divide by zero")]))).
Proof.
  intros Hv. pose proof (handle_op Divide body p Hv) as Hh.
  cbn [op_path op_handler] in Hh. split; intros Hb.
  - split; [exact (divide_nonzero p Hb) |]. split; [apply div_spec |].
    intros Hfa Hfb Hfq. rewrite Hh, (divide_nonzero p Hb).
    cbn [respond]. unfold _make_response. now rewrite model_dump_finite.
  - split; [exact (divide_zero p Hb) |].
    rewrite Hh, (divide_zero p Hb). reflexivity.
Qed.

(** C9: with [b] the negative zero, divide answers 400 "Cannot divide by
    zero" for every [a]: negative zero is a float different from [0.0]
    that the guard's comparison with 0 takes for equal. *)
Theorem divide_negative_zero (x : float) :
  Prim2SF neg_zero = S754_zero true
  /\ float_eq_zero neg_zero = true
  /\ divide (CalculationRequest.Build x neg_zero)
     = ([], Raise (HTTPException 400 "Cannot divide by zero"))
  /\ handle app (Build_Request POST "/calc/divide"
                  (Some (JDict [("a", JNum x); ("b", JNum neg_zero)])))
     = Some ([], Build_Response 400 (JDict [("detail", JStr "Cannot divide by zero")])).
Proof. repeat split. Qed.

(** The operators a handler evaluates are those of its own body, on the
    payload's two fields. *)
Lemma handler_trace (o : calc_op) (p : CalculationRequest.t) (ev : event) :
  In ev (trace (op_handler o p)) ->
  ev = Evaluated (op_binop o) (req_a p) (req_b p)
  /\ (o = Divide -> float_eq_zero (req_b p) = false).
Proof.
  destruct o; cbn [op_handler op_binop].
  1-3: (intros [<- | []]; split; [reflexivity | discriminate]).
  unfold divide. destruct (float_eq_zero (req_b p)) eqn:Hb.
  - intros [].
  - unfold float_truediv. rewrite Hb. intros [<- | []]. now split.
Qed.

Lemma find_route_In (rs : list route) (m : method) (path : string) (r : route) :
  find_route rs m path = Some r -> In r rs.
Proof.
  induction rs as [| r' rs IH]; cbn [find_route]; [discriminate |].
  destruct (method_eqb (route_method r') m && String.eqb (route_path r') path).
  - intros [= ->]. now left.
  - intros H. right. now apply IH.
Qed.

(** The routes of [app] are [health] and the four calculation handlers. *)
Lemma app_endpoints (r : route) :
  In r (routes app) ->
  route_endpoint r = NoBody health
  \/ exists o, route_endpoint r = WithBody (op_handler o).
Proof.
  cbn. intros [<- | [<- | [<- | [<- | [<- | []]]]]]; cbn [route_endpoint];
    [ now left
    | right; now exists Add | right; now exists Subtract
    | right; now exists Multiply | right; now exists Divide ].
Qed.

Lemma respond_trace {A} (dump : A -> jvalue) (m : Py A) :
  fst (respond dump m) = trace m.
Proof. destruct m as [t [x | [s d |]]]; reflexivity. Qed.

(** What a request to [app] can evaluate: nothing, or the operators of one
    calculation handler on a validated payload. *)
Lemma handle_trace (rq : Request) (t : list event) (resp : Response) :
  handle app rq = Some (t, resp) ->
  t = [] \/ exists o p, t = trace (op_handler o p).
Proof.
  unfold handle. destruct (find_route _ _ _) as [r |] eqn:Hr; [| discriminate].
  apply find_route_In, app_endpoints in Hr.
  destruct Hr as [He | [o He]]; rewrite He; cbn [call_endpoint].
  - intros [= <- _]. now left.
  - destruct (CalculationRequest_validate (req_json rq)) as [p |].
    + intros [= H]. right. exists o, p.
      rewrite <- respond_trace with (dump := model_dump). now rewrite H.
    + intros [= <- _]. now left.
Qed.

(** C10: whenever a request to [app] makes a handler evaluate a float
    division, the divisor does not compare equal to zero: it is neither
    of the two zeros.  The guard of [divide] is decided before the
    quotient is computed, and no other handler divides. *)
Theorem division_never_by_zero (rq : Request) (t : list event) (resp : Response)
    (x y : float) :
  handle app rq = Some (t, resp) ->
  In (Evaluated OpTrueDiv x y) t ->
  float_eq_zero y = false /\ y <> 0%float /\ y <> neg_zero.
Proof.
  intros Hh Hin.
  assert (Hy : float_eq_zero y = false).
  { destruct (handle_trace rq t resp Hh) as [-> | [o [p ->]]]; [destruct Hin |].
    destruct (handler_trace o p _ Hin) as [Hev Hdiv].
    injection Hev as Ho _ Hy. subst y. apply Hdiv.
    destruct o; [discriminate Ho .. | reflexivity]. }
  split; [exact Hy |].
  split; intros ->; discriminate Hy.
Qed.

(** C2: on finite [a] and [b], add returns [a + b], subtract [a - b] and
    multiply [a * b], each the IEEE-754 binary64 operation. *)
Theorem arithmetic_results (p : CalculationRequest.t) :
  is_finite (req_a p) = true ->
  is_finite (req_b p) = true ->
  (add p = ([Evaluated OpAdd (req_a p) (req_b p)],
            Return (CalculationResponse.Build "add" (req_a p) (req_b p)
                      (req_a p + req_b p)%float))
   /\ Prim2SF (req_a p + req_b p)%float
      = SF64add (Prim2SF (req_a p)) (Prim2SF (req_b p)))
  /\ (subtract p = ([Evaluated OpSub (req_a p) (req_b p)],
                    Return (CalculationResponse.Build "subtract" (req_a p) (req_b p)
                              (req_a p - req_b p)%float))
      /\ Prim2SF (req_a p - req_b p)%float
         = SF64sub (Prim2SF (req_a p)) (Prim2SF (req_b p)))
  /\ (multiply p = ([Evaluated OpMul (req_a p) (req_b p)],
                    Return (CalculationResponse.Build "multiply" (req_a p) (req_b p)
                              (req_a p * req_b p)%float))
      /\ Prim2SF (req_a p * req_b p)%float
         = SF64mul (Prim2SF (req_a p)) (Prim2SF (req_b p))).
Proof.
  intros _ _. repeat split.
  - apply add_spec.
  - apply sub_spec.
  - apply mul_spec.
Qed.

(** What a handler returns, when it returns. *)
Lemma handler_returns (o : calc_op) (p : CalculationRequest.t) (r : CalculationResponse.t) :
  result_of (op_handler o p) = Return r ->
  r = _make_response (op_name o) p (op_eval o (req_a p) (req_b p)).
Proof.
  destruct o; cbn [op_handler op_name op_eval].
  1-3: (intros [= <-]; reflexivity).
  unfold divide. destruct (float_eq_zero (req_b p)) eqn:Hb; [discriminate |].
  unfold float_truediv. rewrite Hb. intros [= <-]. reflexivity.
Qed.

(** C3: in the response of an operation that succeeds, [a] and [b] are
    the request's [a] and [b]: in the model the handler returns, and,
    when the inputs and the result are finite, as the numbers under "a"
    and "b" in the body of the 200 answer to the request. *)
Theorem inputs_echoed (o : calc_op) (p : CalculationRequest.t) (r : CalculationResponse.t) :
  result_of (op_handler o p) = Return r ->
  CalculationResponse.a r = req_a p
  /\ CalculationResponse.b r = req_b p
  /\ (forall body,
        CalculationRequest_validate body = Some p ->
        is_finite (req_a p) = true -> is_finite (req_b p) = true ->
        is_finite (CalculationResponse.result r) = true ->
        exists t resp,
          handle app (Build_Request POST (op_path o) body) = Some (t, resp)
          /\ status_code resp = 200
          /\ json_item resp "a" = Some (JNum (req_a p))
          /\ json_item resp "b" = Some (JNum (req_b p))).
Proof.
  intros Hr. pose proof (handler_returns o p r Hr) as Heq.
  split; [now rewrite Heq |]. split; [now rewrite Heq |].
  intros body Hv Hfa Hfb Hfr. rewrite (handle_op o body p Hv).
  destruct (op_handler o p) as [t out]. cbn [result_of snd] in Hr. subst out.
  exists t. eexists. split; [reflexivity |]. rewrite Heq in Hfr |- *.
  unfold _make_response in Hfr |- *. cbn [CalculationResponse.result] in Hfr.
  cbn [respond snd status_code]. unfold json_item. cbn [json].
  rewrite model_dump_finite by assumption. repeat split.
Qed.

(** C5: a calculation that succeeds returns a response of exactly four
    fields: the operation name of the endpoint invoked, the two inputs
    and the result; when these three numbers are finite the request is
    answered with status 200 and a body of exactly those four members. *)
Theorem success_response (o : calc_op) (body : option jvalue)
    (p : CalculationRequest.t) (r : CalculationResponse.t) :
  CalculationRequest_validate body = Some p ->
  result_of (op_handler o p) = Return r ->
  r = CalculationResponse.Build (op_name o) (req_a p) (req_b p)
        (op_eval o (req_a p) (req_b p))
  /\ In (op_name o) ["add"; "subtract"; "multiply"; "divide"]
  /\ (is_finite (req_a p) = true -> is_finite (req_b p) = true ->
      is_finite (op_eval o (req_a p) (req_b p)) = true ->
      handle app (Build_Request POST (op_path o) body)
      = Some (trace (op_handler o p),
              Build_Response 200
                (JDict [("operation", JStr (op_name o)); ("a", JNum (req_a p));
                        ("b", JNum (req_b p));
                        ("result", JNum (op_eval o (req_a p) (req_b p)))]))).
Proof.
  intros Hv Hr. pose proof (handler_returns o p r Hr) as ->.
  split; [reflexivity |]. split; [destruct o; cbn; tauto |].
  intros Hfa Hfb Hfr. rewrite (handle_op o body p Hv).
  destruct (op_handler o p) as [t out]. cbn [result_of snd] in Hr. subst out.
  cbn [respond trace fst]. unfold _make_response. now rewrite model_dump_finite.
Qed.

(** Handling requests leaves the application as it was. *)
Lemma state_after_fixed (st : FastAPI) (history : list Request) :
  state_after st history = st.
Proof.
  revert st. induction history as [| rq rest IH]; intros st; cbn [state_after].
  - reflexivity.
  - now rewrite IH.
Qed.

(** C4: health takes no input and cannot fail; whatever requests were
    handled before and whatever the request carries, GET /health is
    answered with status 200 and the body {"status": "ok"}. *)
Theorem health_response (history : list Request) (body : option jvalue) :
  health tt = ([], Return [("status", "ok")])
  /\ handle (state_after app history) (Build_Request GET "/health" body)
     = Some ([], Build_Response 200 (JDict [("status", JStr "ok")])).
Proof.
  split; [reflexivity |]. now rewrite state_after_fixed.
Qed.

(** A body is rejected exactly when it is not an object, or a field is
    missing, or a field is present but not read as a number. *)
Lemma validate_rejects (d : list (string * jvalue)) :
  dict_get "a" d = None
  \/ dict_get "b" d = None
  \/ (exists v, dict_get "a" d = Some v /\ validate_float v = None)
  \/ (exists v, dict_get "b" d = Some v /\ validate_float v = None) ->
  CalculationRequest_validate (Some (JDict d)) = None.
Proof.
  unfold CalculationRequest_validate.
  intros [Ha | [Hb | [[v [Ha Hv]] | [v [Hb Hv]]]]].
  - now rewrite Ha.
  - rewrite Hb. now destruct (dict_get "a" d).
  - rewrite Ha, Hv. now destruct (dict_get "b" d).
  - rewrite Hb, Hv. destruct (dict_get "a" d) as [va |]; [| reflexivity].
    now destruct (validate_float va).
Qed.

(** C6: on every calculation endpoint, a body in which [a] or [b] is
    missing, or present but not parseable as a number, is answered with
    status 422 and not with 500, and the handler is not called: nothing
    is evaluated, and the answer is the same whatever handler the route is
    bound to. *)
Theorem malformed_request (o : calc_op) (d : list (string * jvalue)) :
  dict_get "a" d = None
  \/ dict_get "b" d = None
  \/ (exists v, dict_get "a" d = Some v /\ validate_float v = None)
  \/ (exists v, dict_get "b" d = Some v /\ validate_float v = None) ->
  (exists resp,
     handle app (Build_Request POST (op_path o) (Some (JDict d))) = Some ([], resp)
     /\ status_code resp = 422 /\ status_code resp <> 500)
  /\ (forall f g, call_endpoint (WithBody f) (Some (JDict d))
                  = call_endpoint (WithBody g) (Some (JDict d))).
Proof.
  intros Hbad. apply validate_rejects in Hbad. split.
  - unfold handle. cbn [req_method req_url req_json].
    rewrite find_route_op. cbn [route_endpoint call_endpoint]. rewrite Hbad.
    eexists. split; [reflexivity |]. split; [reflexivity | discriminate].
  - intros f g. cbn [call_endpoint]. now rewrite Hbad.
Qed.

(** C8: the in-process test client and the async HTTP client over the
    in-process app reach the same handler: on finite [a] and [b] with a
    finite sum, POST /calc/add through either is answered 200 with result
    [a + b], after the one addition of [add]; so add on 2 and 3 through
    the first and add on 1 and 4 through the second both give 200 with
    result 5, and the assertions of both tests hold. *)
Theorem client_styles_agree (x y : float) :
  is_finite x = true -> is_finite y = true -> is_finite (x + y)%float = true ->
  (TestClient_post client "/calc/add" (JDict [("a", JNum x); ("b", JNum y)])
   = Some ([Evaluated OpAdd x y],
           Build_Response 200
             (JDict [("operation", JStr "add"); ("a", JNum x); ("b", JNum y);
                     ("result", JNum (x + y)%float)]))
   /\ AsyncClient_post (Build_AsyncClient (Build_ASGITransport app) "http://testserver")
        "/calc/add" (JDict [("a", JNum x); ("b", JNum y)])
      = Some ([Evaluated OpAdd x y],
              Build_Response 200
                (JDict [("operation", JStr "add"); ("a", JNum x); ("b", JNum y);
                        ("result", JNum (x + y)%float)])))
  /\ TestClient_post client "/calc/add" (JDict [("a", JNum 2); ("b", JNum 3)])
     = Some ([Evaluated OpAdd 2 3],
             Build_Response 200
               (JDict [("operation", JStr "add"); ("a", JNum 2); ("b", JNum 3);
                       ("result", JNum 5)]))
  /\ _call_add
     = Some ([Evaluated OpAdd 1 4],
             Build_Response 200
               (JDict [("operation", JStr "add"); ("a", JNum 1); ("b", JNum 4);
                       ("result", JNum 5)]))
  /\ test_add_returns_result = true
  /\ test_httpx_can_call_add_endpoint = true.
Proof.
  intros Hx Hy Hs.
  assert (Hp : CalculationRequest_validate (Some (JDict [("a", JNum x); ("b", JNum y)]))
               = Some (CalculationRequest.Build x y)) by reflexivity.
  pose proof (handle_op Add _ _ Hp) as Hh. cbn [op_path op_handler] in Hh.
  assert (Hans : handle app (Build_Request POST "/calc/add"
                               (Some (JDict [("a", JNum x); ("b", JNum y)])))
                 = Some ([Evaluated OpAdd x y],
                         Build_Response 200
                           (JDict [("operation", JStr "add"); ("a", JNum x);
                                   ("b", JNum y); ("result", JNum (x + y)%float)]))).
  { rewrite Hh. unfold add, float_add, _make_response.
    cbn [bind ret respond List.app CalculationRequest.a CalculationRequest.b].
    now rewrite model_dump_finite. }
  split; [split; exact Hans |]. repeat split.
Qed.

(** The second test of [tests/test_calculator.py] passes as well. *)
Lemma test_divide_by_zero_passes : test_divide_by_zero_returns_400 = true.
Proof. reflexivity. Qed.

End Framework.

(** ** The theorems at concrete requests *)

(** Divide on 6 and 3 is answered 200 with result 2, on 2 and 0 it is
    answered 400. *)
Lemma divide_response_witness :
  (CalculationRequest_validate numbers_only
     (Some (JDict [("a", JNum 6); ("b", JNum 3)]))
   = Some (CalculationRequest.Build 6 3)
   /\ float_eq_zero 3 = false
   /\ is_finite 6 = true /\ is_finite 3 = true /\ is_finite (6 / 3) = true
   /\ handle numbers_only no_detail app
        (Build_Request POST "/calc/divide" (Some (JDict [("a", JNum 6); ("b", JNum 3)])))
      = Some ([Evaluated OpTrueDiv 6 3],
              Build_Response 200
                (JDict [("operation", JStr "divide"); ("a", JNum 6); ("b", JNum 3);
                        ("result", JNum 2)])))
  /\ (float_eq_zero 0 = true
      /\ handle numbers_only no_detail app
           (Build_Request POST "/calc/divide" (Some (JDict [("a", JNum 2); ("b", JNum 0)])))
         = Some ([], Build_Response 400 (JDict [("detail", JStr "Cannot divide by zero")]))).
Proof.
  split.
  - split; [reflexivity |]. split; [reflexivity |].
    split; [reflexivity |]. split; [reflexivity |]. split; [reflexivity |].
    exact (proj2 (proj2 (proj1 (divide_response numbers_only no_detail
                                  (Some (JDict [("a", JNum 6); ("b", JNum 3)]))
                                  (CalculationRequest.Build 6 3) eq_refl) eq_refl))
             eq_refl eq_refl eq_refl).
  - split; [reflexivity |].
    exact (proj2 (proj2 (divide_response numbers_only no_detail
                           (Some (JDict [("a", JNum 2); ("b", JNum 0)]))
                           (CalculationRequest.Build 2 0) eq_refl) eq_refl)).
Defined.

(** The division evaluated for divide on 6 and 3 has divisor 3. *)
Lemma division_never_by_zero_witness :
  handle numbers_only no_detail app
    (Build_Request POST "/calc/divide" (Some (JDict [("a", JNum 6); ("b", JNum 3)])))
  = Some ([Evaluated OpTrueDiv 6 3],
          Build_Response 200
            (JDict [("operation", JStr "divide"); ("a", JNum 6); ("b", JNum 3);
                    ("result", JNum 2)]))
  /\ In (Evaluated OpTrueDiv 6 3) [Evaluated OpTrueDiv 6 3]
  /\ float_eq_zero 3 = false /\ 3%float <> 0%float /\ 3%float <> neg_zero.
Proof.
  split; [reflexivity |]. split; [now left |].
  apply (division_never_by_zero numbers_only no_detail
           (Build_Request POST "/calc/divide"
              (Some (JDict [("a", JNum 6); ("b", JNum 3)])))
           [Evaluated OpTrueDiv 6 3]
           (Build_Response 200
              (JDict [("operation", JStr "divide"); ("a", JNum 6); ("b", JNum 3);
                      ("result", JNum 2)]))
           6 3).
  - reflexivity.
  - now left.
Defined.

(** On 2 and 3: add gives 5, subtract -1, multiply 6. *)
Lemma arithmetic_results_witness :
  is_finite 2 = true /\ is_finite 3 = true
  /\ result_of (add (CalculationRequest.Build 2 3))
     = Return (CalculationResponse.Build "add" 2 3 5)
  /\ result_of (subtract (CalculationRequest.Build 2 3))
     = Return (CalculationResponse.Build "subtract" 2 3 (-1))
  /\ result_of (multiply (CalculationRequest.Build 2 3))
     = Return (CalculationResponse.Build "multiply" 2 3 6).
Proof.
  split; [reflexivity |]. split; [reflexivity |].
  pose proof (arithmetic_results (CalculationRequest.Build 2 3) eq_refl eq_refl)
    as [[Hadd _] [[Hsub _] [Hmul _]]].
  rewrite Hadd, Hsub, Hmul. repeat split.
Defined.

(** Divide on 6 and 3 echoes 6 and 3, in the model returned and in the
    body of the answer. *)
Lemma inputs_echoed_witness :
  result_of (divide (CalculationRequest.Build 6 3))
  = Return (CalculationResponse.Build "divide" 6 3 2)
  /\ CalculationResponse.a (CalculationResponse.Build "divide" 6 3 2) = 6%float
  /\ CalculationResponse.b (CalculationResponse.Build "divide" 6 3 2) = 3%float
  /\ exists t resp,
       handle numbers_only no_detail app
         (Build_Request POST "/calc/divide" (Some (JDict [("a", JNum 6); ("b", JNum 3)])))
       = Some (t, resp)
       /\ status_code resp = 200
       /\ json_item resp "a" = Some (JNum 6)
       /\ json_item resp "b" = Some (JNum 3).
Proof.
  split; [reflexivity |].
  pose proof (inputs_echoed numbers_only no_detail Divide (CalculationRequest.Build 6 3)
                (CalculationResponse.Build "divide" 6 3 2) eq_refl)
    as [Ha [Hb Hbody]].
  split; [exact Ha |]. split; [exact Hb |].
  exact (Hbody (Some (JDict [("a", JNum 6); ("b", JNum 3)]))
           eq_refl eq_refl eq_refl eq_refl).
Defined.

(** Multiply on 4 and 2.5 is answered 200 with the four members. *)
Lemma success_response_witness :
  result_of (multiply (CalculationRequest.Build 4 2.5))
  = Return (CalculationResponse.Build "multiply" 4 2.5 10)
  /\ In "multiply" ["add"; "subtract"; "multiply"; "divide"]
  /\ handle numbers_only no_detail app
       (Build_Request POST "/calc/multiply" (Some (JDict [("a", JNum 4); ("b", JNum 2.5)])))
     = Some ([Evaluated OpMul 4 2.5],
             Build_Response 200
               (JDict [("operation", JStr "multiply"); ("a", JNum 4); ("b", JNum 2.5);
                       ("result", JNum 10)])).
Proof.
  split; [reflexivity |].
  pose proof (success_response numbers_only no_detail Multiply
                (Some (JDict [("a", JNum 4); ("b", JNum 2.5)]))
                (CalculationRequest.Build 4 2.5)
                (CalculationResponse.Build "multiply" 4 2.5 10) eq_refl eq_refl)
    as [_ [Hname Hbody]].
  split; [exact Hname |]. exact (Hbody eq_refl eq_refl eq_refl).
Defined.

(** Add with a non-numeric string for [a] is answered 422. *)
Lemma malformed_request_witness :
  (exists v, dict_get "a" [("a", JStr "two"); ("b", JNum 3)] = Some v
             /\ validate_float numbers_only v = None)
  /\ exists resp,
       handle numbers_only no_detail app
         (Build_Request POST "/calc/add" (Some (JDict [("a", JStr "two"); ("b", JNum 3)])))
       = Some ([], resp)
       /\ status_code resp = 422 /\ status_code resp <> 500.
Proof.
  assert (Hbad : exists v, dict_get "a" [("a", JStr "two"); ("b", JNum 3)] = Some v
                           /\ validate_float numbers_only v = None).
  { exists (JStr "two"). split; reflexivity. }
  split; [exact Hbad |].
  exact (proj1 (malformed_request numbers_only no_detail Add
                  [("a", JStr "two"); ("b", JNum 3)]
                  (or_intror (or_intror (or_introl Hbad))))).
Defined.

(** Add on 1.5 and 2.25 through the test client and through the async
    client: 200 with result 3.75. *)
Lemma client_styles_agree_witness :
  is_finite 1.5 = true /\ is_finite 2.25 = true /\ is_finite (1.5 + 2.25) = true
  /\ TestClient_post numbers_only no_detail client "/calc/add"
       (JDict [("a", JNum 1.5); ("b", JNum 2.25)])
     = Some ([Evaluated OpAdd 1.5 2.25],
             Build_Response 200
               (JDict [("operation", JStr "add"); ("a", JNum 1.5); ("b", JNum 2.25);
                       ("result", JNum 3.75)]))
  /\ AsyncClient_post numbers_only no_detail
       (Build_AsyncClient (Build_ASGITransport app) "http://testserver")
       "/calc/add" (JDict [("a", JNum 1.5); ("b", JNum 2.25)])
     = Some ([Evaluated OpAdd 1.5 2.25],
             Build_Response 200
               (JDict [("operation", JStr "add"); ("a", JNum 1.5); ("b", JNum 2.25);
                       ("result", JNum 3.75)])).
Proof.
  split; [reflexivity |]. split; [reflexivity |]. split; [reflexivity |].
  exact (proj1 (client_styles_agree numbers_only no_detail 1.5 2.25
                  eq_refl eq_refl eq_refl)).
Defined.

(** ** Further properties of the handlers *)

Section Further.

Variable coerce_float : jvalue -> option float.
Variable validation_detail : option jvalue -> jvalue.

Local Abbreviation req_a := CalculationRequest.a.
Local Abbreviation req_b := CalculationRequest.b.

(** How a calculation handler ends: it returns, or it is [divide] on a
    divisor that compares equal to zero and raises the 400 exception. *)
Lemma handler_outcome (o : calc_op) (p : CalculationRequest.t) :
  (float_eq_zero (req_b p) = true /\ o = Divide
   /\ op_handler o p = ([], Raise (HTTPException 400 "Cannot divide by zero")))
  \/ ((o = Divide -> float_eq_zero (req_b p) = false)
      /\ op_handler o p
         = ([Evaluated (op_binop o) (req_a p) (req_b p)],
            Return (_make_response (op_name o) p (op_eval o (req_a p) (req_b p))))).
Proof.
  destruct o; cbn [op_handler op_binop op_name op_eval].
  1-3: (right; split; [discriminate | reflexivity]).
  destruct (float_eq_zero (req_b p)) eqn:Hb.
  - left. repeat split. now apply divide_zero.
  - right. split; [reflexivity | now apply divide_nonzero].
Qed.

(** X1: a calculation handler fails on a validated payload exactly when
    it is [divide] and [b] is one of the two zeros, and then with the 400
    exception; add, subtract and multiply never fail, and divide fails on
    no other divisor, however small, infinite or not a number. *)
Theorem handler_fails_iff (o : calc_op) (p : CalculationRequest.t) (e : exception) :
  result_of (op_handler o p) = Raise e
  <-> o = Divide
      /\ (req_b p = 0%float \/ req_b p = neg_zero)
      /\ e = HTTPException 400 "Cannot divide by zero".
Proof.
  destruct (handler_outcome o p) as [[Hb [Ho Hh]] | [Hb Hh]]; rewrite Hh;
    cbn [result_of snd].
  - split.
    + intros [= <-]. repeat split; [exact Ho | now apply float_eq_zero_iff].
    + intros [_ [_ ->]]. reflexivity.
  - split; [discriminate |].
    intros [Ho [Hz _]]. apply float_eq_zero_iff in Hz.
    rewrite (Hb Ho) in Hz. discriminate Hz.
Qed.

(** X2: a successful answer determines the request: two calls that
    return the same response went to the same endpoint with the same
    payload. *)
Theorem response_determines_request (o1 o2 : calc_op) (p1 p2 : CalculationRequest.t)
    (r : CalculationResponse.t) :
  result_of (op_handler o1 p1) = Return r ->
  result_of (op_handler o2 p2) = Return r ->
  o1 = o2 /\ p1 = p2.
Proof.
  intros H1 H2. apply handler_returns in H1, H2. rewrite H1 in H2.
  unfold _make_response in H2. injection H2 as Hn Ha Hb _.
  split.
  - destruct o1, o2; (reflexivity || discriminate Hn).
  - destruct p1, p2; cbn in Ha, Hb. now subst.
Qed.

(** *** Floating-point edges

    Facts about the IEEE specification functions that the handlers'
    operators agree with, then what they mean for the handlers. *)

(** Shifting a mantissa that is not negative leaves it so; hence rounding
    a magnitude never yields the NaN of the specification. *)
Lemma shr_1_nonneg (mrs : shr_record) : (0 <= shr_m mrs)%Z -> (0 <= shr_m (shr_1 mrs))%Z.
Proof.
  destruct mrs as [m r s]. cbn [shr_m]. intros Hm.
  destruct m as [| [q | q |] | q]; cbn; lia.
Qed.

Lemma iter_pos_shr_1_nonneg (n : positive) (mrs : shr_record) :
  (0 <= shr_m mrs)%Z -> (0 <= shr_m (iter_pos shr_1 n mrs))%Z.
Proof.
  revert mrs. induction n as [n IH | n IH |]; intros mrs Hm; cbn [iter_pos].
  - apply IH, IH, shr_1_nonneg, Hm.
  - apply IH, IH, Hm.
  - apply shr_1_nonneg, Hm.
Qed.

Lemma shr_fexp_nonneg (prec emax m e : Z) (l : location) :
  (0 <= m)%Z -> (0 <= shr_m (fst (shr_fexp prec emax m e l)))%Z.
Proof.
  intros Hm. unfold shr_fexp, shr.
  assert (H0 : (0 <= shr_m (shr_record_of_loc m l))%Z).
  { destruct l as [| []]; exact Hm. }
  destruct (_ - e)%Z; cbn [fst]; try exact H0.
  now apply iter_pos_shr_1_nonneg.
Qed.

Lemma round_nearest_even_nonneg (m : Z) (l : location) :
  (0 <= m)%Z -> (0 <= round_nearest_even m l)%Z.
Proof.
  intros Hm. destruct l as [| []]; cbn; try destruct (Z.even m); lia.
Qed.

(** Rounding a magnitude gives a zero, a finite value or an infinity. *)
Lemma binary_round_aux_not_nan (prec emax : Z) (s : bool) (m e : Z) (l : location) :
  (0 <= m)%Z -> binary_round_aux prec emax s m e l <> S754_nan.
Proof.
  intros Hm. unfold binary_round_aux.
  pose proof (shr_fexp_nonneg prec emax m e l Hm) as H1.
  destruct (shr_fexp prec emax m e l) as [mrs1 e1]. cbn [fst] in H1.
  pose proof (shr_fexp_nonneg prec emax
                (round_nearest_even (shr_m mrs1) (loc_of_shr_record mrs1)) e1 loc_Exact
                (round_nearest_even_nonneg _ _ H1)) as H2.
  destruct (shr_fexp prec emax _ e1 loc_Exact) as [mrs2 e2]. cbn [fst] in H2.
  destruct (shr_m mrs2); [discriminate | | lia].
  destruct (Z.leb e2 (emax - prec)); discriminate.
Qed.

Lemma binary_normalize_not_nan (prec emax m e : Z) (sz : bool) :
  binary_normalize prec emax m e sz <> S754_nan.
Proof.
  destruct m; cbn [binary_normalize]; [discriminate | |];
    unfold binary_round; destruct (shl_align _ _ _);
    apply binary_round_aux_not_nan; lia.
Qed.

(** Sums, differences, products of finite values, and quotients of a
    finite value by a finite non-zero one, are not NaN. *)
Lemma SFadd_not_nan prec emax x y : SFfinite x = true -> SFfinite y = true ->
  SFadd prec emax x y <> S754_nan.
Proof.
  destruct x as [sx| | |sx mx ex], y as [sy| | |sy my ey]; try discriminate; intros _ _;
    cbn [SFadd SFsub]; try discriminate;
    [destruct sx, sy; discriminate | apply binary_normalize_not_nan].
Qed.

Lemma SFsub_not_nan prec emax x y : SFfinite x = true -> SFfinite y = true ->
  SFsub prec emax x y <> S754_nan.
Proof.
  destruct x as [sx| | |sx mx ex], y as [sy| | |sy my ey]; try discriminate; intros _ _;
    cbn [SFadd SFsub]; try discriminate;
    [destruct sx, sy; discriminate | apply binary_normalize_not_nan].
Qed.

Lemma SFmul_not_nan prec emax x y : SFfinite x = true -> SFfinite y = true ->
  SFmul prec emax x y <> S754_nan.
Proof.
  destruct x as [sx| | |sx mx ex], y as [sy| | |sy my ey]; try discriminate; intros _ _; cbn [SFmul];
  try discriminate.
  apply binary_round_aux_not_nan. lia.
Qed.

Lemma SFdiv_not_nan prec emax x y : SFfinite x = true -> (exists s m e, y = S754_finite s m e) ->
  SFdiv prec emax x y <> S754_nan.
Proof.
  intros Hx [sy [my [ey ->]]].
  destruct x as [sx| | |sx mx ex]; try discriminate; cbn [SFdiv]; try discriminate.
  unfold SFdiv_core_binary.
  set (e' := Z.min _ _). set (m' := match (ex - ey - e')%Z with Z0 => _ | Zpos _ => _ | Zneg _ => _ end).
  assert (Hm' : (0 <= m')%Z).
  { subst m'. destruct (ex - ey - e')%Z; try lia. apply Z.shiftl_nonneg. lia. }
  pose proof (Z_div_mod m' (Zpos my) eq_refl) as Hdm.
  destruct (Z.div_eucl m' (Z.pos my)) as [q r].
  apply binary_round_aux_not_nan. nia.
Qed.

(** Addition and multiplication of the specification commute. *)
Lemma SFadd_comm prec emax x y : SFadd prec emax x y = SFadd prec emax y x.
Proof.
  destruct x as [sx | sx | | sx mx ex], y as [sy | sy | | sy my ey]; cbn [SFadd];
    try reflexivity; try (destruct sx, sy; reflexivity).
  replace (IntDef.Z.min ey ex) with (IntDef.Z.min ex ey) by apply Z.min_comm.
  f_equal. apply Z.add_comm.
Qed.

Lemma SFmul_comm prec emax x y : SFmul prec emax x y = SFmul prec emax y x.
Proof.
  destruct x as [sx | sx | | sx mx ex], y as [sy | sy | | sy my ey]; cbn [SFmul];
    try reflexivity; try (now rewrite xorb_comm).
  rewrite xorb_comm, Pos.mul_comm. f_equal. apply Z.add_comm.
Qed.

(** Every value but NaN compares equal to itself. *)
Lemma SFeqb_refl x : x <> S754_nan -> SFeqb x x = true.
Proof.
  unfold SFeqb. destruct x as [s | s | | s m e]; cbn [SFcompare]; intros Hx.
  - reflexivity.
  - now destruct s.
  - now contradiction Hx.
  - destruct s; rewrite Z.compare_refl, Pos.compare_cont_refl; reflexivity.
Qed.

(** [is_nan] and [is_finite] in terms of the specification. *)
Lemma is_nan_spec (x : float) : is_nan x = true <-> Prim2SF x = S754_nan.
Proof.
  unfold is_nan. rewrite eqb_spec. split.
  - intros H. destruct (Prim2SF x) eqn:E; try reflexivity;
      rewrite SFeqb_refl in H; discriminate.
  - intros ->. reflexivity.
Qed.

Lemma is_finite_spec (x : float) : is_finite x = true -> SFfinite (Prim2SF x) = true.
Proof.
  unfold is_finite, is_nan, is_infinity. rewrite !eqb_spec, abs_spec.
  destruct (Prim2SF x) as [s | s | | s m e]; try reflexivity;
    [destruct s |]; intros H; vm_compute in H; discriminate H.
Qed.

(** A finite float that does not compare equal to zero. *)
Lemma nonzero_finite (x : float) : is_finite x = true -> (x =? 0)%float = false ->
  exists s m e, Prim2SF x = S754_finite s m e.
Proof.
  intros Hf Hz. apply is_finite_spec in Hf. rewrite eqb_spec in Hz.
  destruct (Prim2SF x) as [s | s | | s m e]; try discriminate.
  now exists s, m, e.
Qed.

(** The result of each operator, in the IEEE specification. *)
Lemma op_eval_spec (o : calc_op) (x y : float) :
  Prim2SF (op_eval o x y)
  = match o with
    | Add => SF64add | Subtract => SF64sub | Multiply => SF64mul | Divide => SF64div
    end (Prim2SF x) (Prim2SF y).
Proof.
  destruct o; cbn [op_eval];
    [apply add_spec | apply sub_spec | apply mul_spec | apply div_spec].
Qed.

(** X5: on finite [a] and [b], an answer that succeeds never carries a
    NaN result, whatever the endpoint: sums, differences and products of
    finite values may overflow but are numbers, and the quotients that
    would not be are those the guard of [divide] refuses. *)
Theorem finite_inputs_no_nan (o : calc_op) (p : CalculationRequest.t)
    (r : CalculationResponse.t) :
  is_finite (req_a p) = true ->
  is_finite (req_b p) = true ->
  result_of (op_handler o p) = Return r ->
  is_nan (CalculationResponse.result r) = false.
Proof.
  intros Ha Hb Hr.
  assert (Hnz : o = Divide -> float_eq_zero (req_b p) = false).
  { destruct (handler_outcome o p) as [[_ [_ Hh]] | [Hnz _]]; [| exact Hnz].
    rewrite Hh in Hr. discriminate Hr. }
  rewrite (handler_returns o p r Hr). cbn [_make_response CalculationResponse.result].
  destruct (is_nan _) eqn:E; [| reflexivity]. exfalso.
  apply is_nan_spec in E. rewrite op_eval_spec in E. revert E.
  pose proof (is_finite_spec _ Ha) as Hfa.
  destruct o.
  - apply SFadd_not_nan; [exact Hfa | now apply is_finite_spec].
  - apply SFsub_not_nan; [exact Hfa | now apply is_finite_spec].
  - apply SFmul_not_nan; [exact Hfa | now apply is_finite_spec].
  - apply SFdiv_not_nan; [exact Hfa | apply nonzero_finite; [exact Hb | now apply Hnz]].
Qed.

(** NaN in, NaN out, for each operator. *)
Lemma op_eval_nan (o : calc_op) (x y : float) :
  is_nan x = true \/ is_nan y = true -> is_nan (op_eval o x y) = true.
Proof.
  rewrite !is_nan_spec, op_eval_spec. intros [-> | ->].
  - destruct o; reflexivity.
  - destruct o, (Prim2SF x); reflexivity.
Qed.

(** X6: NaN is not refused and propagates: when [a] or [b] is NaN, every
    answer that succeeds has a NaN result, and a NaN divisor passes the
    guard of [divide], so that all four endpoints then succeed. *)
Theorem nan_propagates (o : calc_op) (p : CalculationRequest.t) :
  is_nan (req_a p) = true \/ is_nan (req_b p) = true ->
  (forall r, result_of (op_handler o p) = Return r ->
             is_nan (CalculationResponse.result r) = true)
  /\ (is_nan (req_b p) = true -> exists r, result_of (op_handler o p) = Return r).
Proof.
  intros Hnan. split.
  - intros r Hr. rewrite (handler_returns o p r Hr).
    cbn [_make_response CalculationResponse.result]. now apply op_eval_nan.
  - intros Hb. destruct (handler_outcome o p) as [[Hz _] | [_ Hh]].
    + apply is_nan_spec in Hb. rewrite float_eq_zero_spec, Hb in Hz. discriminate Hz.
    + rewrite Hh. eexists. reflexivity.
Qed.

(** X7: no endpoint guards against overflow: each of the four has finite
    inputs, with a divisor that is not zero, on which it succeeds with an
    infinite result. *)
Theorem overflow_not_refused (o : calc_op) :
  exists p r,
    is_finite (req_a p) = true /\ is_finite (req_b p) = true
    /\ float_eq_zero (req_b p) = false
    /\ result_of (op_handler o p) = Return r
    /\ is_infinity (CalculationResponse.result r) = true.
Proof.
  destruct o.
  - exists (CalculationRequest.Build float_max float_max). eexists. now repeat split.
  - exists (CalculationRequest.Build float_max (- float_max)). eexists. now repeat split.
  - exists (CalculationRequest.Build float_max 2). eexists. now repeat split.
  - exists (CalculationRequest.Build float_max 0.5). eexists. now repeat split.
Qed.

(** X8: add and multiply do not depend on the order of their inputs:
    with [a] and [b] exchanged the result is the same and the echoed
    fields are exchanged. *)
Theorem add_multiply_symmetric (o : calc_op) (x y : float)
    (r r' : CalculationResponse.t) :
  o = Add \/ o = Multiply ->
  result_of (op_handler o (CalculationRequest.Build x y)) = Return r ->
  result_of (op_handler o (CalculationRequest.Build y x)) = Return r' ->
  CalculationResponse.result r = CalculationResponse.result r'
  /\ CalculationResponse.operation r = CalculationResponse.operation r'
  /\ CalculationResponse.a r = CalculationResponse.b r'
  /\ CalculationResponse.b r = CalculationResponse.a r'.
Proof.
  intros Ho Hr Hr'. apply handler_returns in Hr, Hr'. subst r r'.
  cbn. repeat split. apply Prim2SF_inj. rewrite !op_eval_spec.
  destruct Ho as [-> | ->]; [apply SFadd_comm | apply SFmul_comm].
Qed.

(** X9: what [test_divide_by_zero_returns_400] asserts holds for every
    numerator and for both zeros, through either client: the status is
    400 and the detail is "Cannot divide by zero"; the test itself is the
    case of 2 and 0. *)
Theorem divide_by_zero_assertions (x z : float) :
  z = 0%float \/ z = neg_zero ->
  TestClient_post coerce_float validation_detail client "/calc/divide"
    (JDict [("a", JNum x); ("b", JNum z)])
  = Some ([], Build_Response 400 (JDict [("detail", JStr "Cannot divide by zero")]))
  /\ AsyncClient_post coerce_float validation_detail
       (Build_AsyncClient (Build_ASGITransport app) "http://testserver")
       "/calc/divide" (JDict [("a", JNum x); ("b", JNum z)])
     = Some ([], Build_Response 400 (JDict [("detail", JStr "Cannot divide by zero")]))
  /\ test_divide_by_zero_returns_400 coerce_float validation_detail = true.
Proof.
  intros [-> | ->]; repeat split.
Qed.

End Further.

(** ** The further properties at concrete requests *)

(** The response of subtract on 5 and 3 comes from subtract on 5 and 3. *)
Lemma response_determines_request_witness :
  result_of (subtract (CalculationRequest.Build 5 3))
  = Return (CalculationResponse.Build "subtract" 5 3 2)
  /\ Subtract = Subtract
  /\ CalculationRequest.Build 5 3 = CalculationRequest.Build 5 3.
Proof.
  split; [reflexivity |].
  exact (response_determines_request Subtract Subtract
           (CalculationRequest.Build 5 3) (CalculationRequest.Build 5 3)
           (CalculationResponse.Build "subtract" 5 3 2) eq_refl eq_refl).
Defined.

(** The largest finite value times itself: infinite, and not NaN. *)
Lemma finite_inputs_no_nan_witness :
  is_finite float_max = true
  /\ result_of (multiply (CalculationRequest.Build float_max float_max))
     = Return (CalculationResponse.Build "multiply" float_max float_max infinity)
  /\ is_nan infinity = false.
Proof.
  split; [reflexivity |]. split; [reflexivity |].
  exact (finite_inputs_no_nan Multiply (CalculationRequest.Build float_max float_max)
           (CalculationResponse.Build "multiply" float_max float_max infinity)
           eq_refl eq_refl eq_refl).
Defined.

(** Divide on 1 and NaN succeeds, with a NaN result. *)
Lemma nan_propagates_witness :
  is_nan nan = true
  /\ (forall r, result_of (divide (CalculationRequest.Build 1 nan)) = Return r ->
                is_nan (CalculationResponse.result r) = true)
  /\ exists r, result_of (divide (CalculationRequest.Build 1 nan)) = Return r.
Proof.
  split; [reflexivity |].
  pose proof (nan_propagates Divide (CalculationRequest.Build 1 nan)
                (or_intror eq_refl)) as [H1 H2].
  split; [exact H1 | exact (H2 eq_refl)].
Defined.

(** Add on 1.5 and 2.25 and on 2.25 and 1.5. *)
Lemma add_multiply_symmetric_witness :
  result_of (add (CalculationRequest.Build 1.5 2.25))
  = Return (CalculationResponse.Build "add" 1.5 2.25 (1.5 + 2.25))
  /\ result_of (add (CalculationRequest.Build 2.25 1.5))
     = Return (CalculationResponse.Build "add" 2.25 1.5 (2.25 + 1.5))
  /\ (1.5 + 2.25 = 2.25 + 1.5)%float.
Proof.
  split; [reflexivity |]. split; [reflexivity |].
  exact (proj1 (add_multiply_symmetric Add 1.5 2.25
                  (CalculationResponse.Build "add" 1.5 2.25 (1.5 + 2.25))
                  (CalculationResponse.Build "add" 2.25 1.5 (2.25 + 1.5))
                  (or_introl eq_refl) eq_refl eq_refl)).
Defined.

(** Divide on 7 and the negative zero, through the test client. *)
Lemma divide_by_zero_assertions_witness :
  TestClient_post numbers_only no_detail client "/calc/divide"
    (JDict [("a", JNum 7); ("b", JNum neg_zero)])
  = Some ([], Build_Response 400 (JDict [("detail", JStr "Cannot divide by zero")])).
Proof.
  exact (proj1 (divide_by_zero_assertions numbers_only no_detail 7 neg_zero
                  (or_intror eq_refl))).
Defined.
